(** * backyard-flyer-sim: the flight state machine of [backyard_flyer.py]

    A shallow embedding of the class [BackyardFlyer] and of its three
    telemetry callbacks.  Python floats are IEEE 754 binary64 numbers and
    are modelled by Rocq's primitive floats, so every definition below
    evaluates.  The attributes owned by the class are a record which the
    methods thread through a small state, output and exception monad; the
    attributes the [Drone] base class refreshes before it runs a callback
    (positions, velocity, home) are read from a [Telemetry] record.  The
    [print] calls of the transitions, progress lines on standard output, are
    left out. *)

From Stdlib Require Import List Bool ZArith Lia Floats.
Import ListNotations.

Set Warnings "-inexact-float".

(** ** Data *)

(** [class States(Enum)] *)
Inductive States : Type :=
| MANUAL | ARMING | TAKEOFF | WAYPOINT | LANDING | DISARMING.

(** A three-component vector: [np.array([a, b, c])] or the list [[a, b, c]];
    [c0 v], [c1 v], [c2 v] stand for [v[0]], [v[1]], [v[2]]. *)
Record Vec3 : Type := mkVec3 { c0 : float; c1 : float; c2 : float }.

(** The attributes [BackyardFlyer.__init__] creates. *)
Record BackyardFlyer : Type := mkFlyer {
  target_position : Vec3;
  all_waypoints : list Vec3;
  in_mission : bool;
  flight_state : States
}.

(** The attributes of [Drone] the callbacks read. *)
Record Telemetry : Type := mkTelemetry {
  local_position : Vec3;
  local_velocity : Vec3;
  global_position : Vec3;
  global_home : Vec3
}.

(** The calls a transition makes on the vehicle interface, in the order it
    makes them.  [stop] is [Drone.stop], which closes the connection. *)
Inductive Command : Type :=
| take_control
| arm
| set_home_position (longitude latitude altitude : float)
| takeoff (target_altitude : float)
| cmd_position (north east altitude heading : float)
| land
| disarm
| release_control
| stop.

(** The Python exceptions the modelled statements can raise. *)
Inductive Exn : Type :=
| IndexError   (* [pop] from an empty list, index out of range *)
| ValueError.  (* unpacking a list of the wrong length *)

Inductive Outcome (A : Type) : Type :=
| Ok (a : A)
| Raise (e : Exn).
Arguments Ok {A} a.
Arguments Raise {A} e.

(** ** The monad of methods: state [self], emitted calls, exceptions *)

Definition M (A : Type) : Type :=
  BackyardFlyer -> Outcome (A * BackyardFlyer * list Command).

Definition ret {A} (a : A) : M A := fun s => Ok (a, s, []).

Definition bind {A B} (m : M A) (k : A -> M B) : M B :=
  fun s =>
    match m s with
    | Raise e => Raise e
    | Ok (a, s1, out1) =>
        match k a s1 with
        | Raise e => Raise e
        | Ok (b, s2, out2) => Ok (b, s2, out1 ++ out2)
        end
    end.

Definition gets {A} (f : BackyardFlyer -> A) : M A := fun s => Ok (f s, s, []).
Definition modify (f : BackyardFlyer -> BackyardFlyer) : M unit :=
  fun s => Ok (tt, f s, []).
Definition emit (c : Command) : M unit := fun s => Ok (tt, s, [c]).
Definition raise {A} (e : Exn) : M A := fun _ => Raise e.
Definition lift {A} (o : Outcome A) : M A :=
  fun s => match o with Ok a => Ok (a, s, []) | Raise e => Raise e end.

Declare Scope flyer_scope.
Delimit Scope flyer_scope with flyer.
Notation "x <- m ;; k" := (bind m (fun x => k))
  (at level 61, m at next level, right associativity) : flyer_scope.
Notation "m ;; k" := (bind m (fun _ => k))
  (at level 61, right associativity) : flyer_scope.
Local Open Scope flyer_scope.

(** Attribute assignments. *)
Definition set_target_position (v : Vec3) (s : BackyardFlyer) : BackyardFlyer :=
  mkFlyer v (all_waypoints s) (in_mission s) (flight_state s).
Definition set_all_waypoints (l : list Vec3) (s : BackyardFlyer) : BackyardFlyer :=
  mkFlyer (target_position s) l (in_mission s) (flight_state s).
Definition set_in_mission (b : bool) (s : BackyardFlyer) : BackyardFlyer :=
  mkFlyer (target_position s) (all_waypoints s) b (flight_state s).
Definition set_flight_state (p : States) (s : BackyardFlyer) : BackyardFlyer :=
  mkFlyer (target_position s) (all_waypoints s) (in_mission s) p.

(** [v[2] = a] *)
Definition set_c2 (a : float) (v : Vec3) : Vec3 := mkVec3 (c0 v) (c1 v) a.

(** ** Arithmetic of the guards *)

(** The fused multiply-add [x * y + z] of IEEE 754, rounded once to the
    nearest float (ties to even), on the specification floats: the exact
    product and the addend are brought to a common exponent, added as
    integers and rounded. *)
Definition SFfma (x y z : spec_float) : spec_float :=
  match x, y with
  | S754_nan, _ | _, S754_nan => S754_nan
  | S754_infinity _, S754_zero _ | S754_zero _, S754_infinity _ => S754_nan
  | S754_infinity sx, S754_infinity sy
  | S754_infinity sx, S754_finite sy _ _
  | S754_finite sx _ _, S754_infinity sy =>
      match z with
      | S754_nan => S754_nan
      | S754_infinity sz => if Bool.eqb (xorb sx sy) sz then z else S754_nan
      | _ => S754_infinity (xorb sx sy)
      end
  | S754_finite sx _ _, S754_zero sy
  | S754_zero sx, S754_finite sy _ _
  | S754_zero sx, S754_zero sy =>
      match z with
      | S754_nan => S754_nan
      | S754_zero _ => SFadd prec emax (S754_zero (xorb sx sy)) z
      | _ => z
      end
  | S754_finite sx mx ex, S754_finite sy my ey =>
      match z with
      | S754_nan => S754_nan
      | S754_infinity _ => z
      | S754_zero _ => SFmul prec emax x y
      | S754_finite sz mz ez =>
          let e := Z.min (ex + ey) ez in
          binary_normalize prec emax
            (cond_Zopp (xorb sx sy)
                       (Zpos (fst (shl_align (mx * my) (ex + ey) e)))
             + cond_Zopp sz (Zpos (fst (shl_align mz ez e))))%Z
            e false
      end
  end.

Definition fma (x y z : float) : float :=
  SF2Prim (SFfma (Prim2SF x) (Prim2SF y) (Prim2SF z)).

(** [np.linalg.norm] of a two-component vector [[a, b]]: [sqrt(x.dot(x))].
    The dot product is the loop of the BLAS routine behind [dot], which
    starts from 0 and adds each product to the running sum with one
    rounding; so the first product is rounded and the second is added to it
    fused. *)
Definition norm2 (a b : float) : float :=
  PrimFloat.sqrt (fma b b (fma a a 0)).

(** [np.linalg.norm(u[0:2] - v[0:2])] *)
Definition planar_distance (u v : Vec3) : float :=
  norm2 (c0 u - c0 v)%float (c1 u - c1 v)%float.

(** [np.linalg.norm(v[0:2])] *)
Definition planar_speed (v : Vec3) : float := norm2 (c0 v) (c1 v).

(** ** The mission planner *)

(** [flight_plan_coordinates]: [[x_start, x_end, y_start, y_end, altitude]] *)
Definition flight_plan_coordinates : list float :=
  [0.0; 20.0; 0.0; 20.0; 3.0]%float.

(** The body of [calculate_box] on a plan: the unpacking assignment
    [[x_start, x_end, y_start, y_end, altitude] = plan] raises [ValueError]
    unless the plan has five components. *)
Definition box_of_plan (plan : list float) : Outcome (list Vec3) :=
  match plan with
  | [x_start; x_end; y_start; y_end; altitude] =>
      Ok [ mkVec3 x_end y_start altitude;
           mkVec3 x_end y_end altitude;
           mkVec3 x_start y_end altitude;
           mkVec3 x_start y_start altitude ]
  | _ => Raise ValueError
  end.

Definition calculate_box : Outcome (list Vec3) :=
  box_of_plan flight_plan_coordinates.

(** ** The transitions *)

Definition arming_transition (t : Telemetry) : M unit :=
  emit take_control ;;
  emit arm ;;
  emit (set_home_position (c0 (global_position t))
                          (c1 (global_position t))
                          (c2 (global_position t))) ;;
  modify (set_flight_state ARMING).

Definition takeoff_transition : M unit :=
  target_altitude <-
    lift (match nth_error flight_plan_coordinates 4 with
          | Some a => Ok a
          | None => Raise IndexError
          end) ;;
  tp <- gets target_position ;;
  modify (set_target_position (set_c2 target_altitude tp)) ;;
  emit (takeoff target_altitude) ;;
  modify (set_flight_state TAKEOFF).

Definition waypoint_transition : M unit :=
  wps <- gets all_waypoints ;;
  match wps with
  | [] => raise IndexError
  | w :: rest =>
      modify (set_all_waypoints rest) ;;
      modify (set_target_position w) ;;
      emit (cmd_position (c0 w) (c1 w) (c2 w) 0.0) ;;
      modify (set_flight_state WAYPOINT)
  end.

Definition landing_transition : M unit :=
  emit land ;;
  modify (set_flight_state LANDING).

Definition disarming_transition : M unit :=
  emit disarm ;;
  modify (set_flight_state DISARMING).

Definition manual_transition : M unit :=
  emit release_control ;;
  emit stop ;;
  modify (set_in_mission false) ;;
  modify (set_flight_state MANUAL).

(** ** The callbacks *)

Definition local_position_callback (t : Telemetry) : M unit :=
  fs <- gets flight_state ;;
  match fs with
  | TAKEOFF =>
      tp <- gets target_position ;;
      if (0.95 * c2 tp <? -1 * c2 (local_position t))%float then
        box <- lift calculate_box ;;
        modify (set_all_waypoints box) ;;
        waypoint_transition
      else ret tt
  | WAYPOINT =>
      tp <- gets target_position ;;
      if (planar_distance tp (local_position t) <? 1.0)%float then
        wps <- gets all_waypoints ;;
        if (0 <? length wps)%nat then waypoint_transition
        else if (planar_speed (local_velocity t) <? 0.1)%float
             then landing_transition
             else ret tt
      else ret tt
  | _ => ret tt
  end.

Definition velocity_callback (t : Telemetry) : M unit :=
  fs <- gets flight_state ;;
  match fs with
  | LANDING =>
      if (c2 (global_position t) - c2 (global_home t) <? 0.1)%float then
        if (abs (c2 (local_position t)) <? 0.05)%float
        then disarming_transition
        else ret tt
      else ret tt
  | _ => ret tt
  end.

Definition state_callback (t : Telemetry) : M unit :=
  im <- gets in_mission ;;
  if negb im then ret tt
  else
    fs <- gets flight_state ;;
    match fs with
    | MANUAL => arming_transition t
    | ARMING => takeoff_transition
    | DISARMING => manual_transition
    | _ => ret tt
    end.

(** [BackyardFlyer.__init__] *)
Definition init : BackyardFlyer :=
  mkFlyer (mkVec3 0.0 0.0 0.0) [] true MANUAL.

(** The message kinds the callbacks are registered for ([MsgID]). *)
Inductive MsgID : Type := LOCAL_POSITION | LOCAL_VELOCITY | STATE.

(** What [register_callback] sets up: the callback run for a message. *)
Definition notify_callbacks (m : MsgID) (t : Telemetry) : M unit :=
  match m with
  | LOCAL_POSITION => local_position_callback t
  | LOCAL_VELOCITY => velocity_callback t
  | STATE => state_callback t
  end.

(** A run of the machine: the callbacks of the delivered messages, one
    after the other, each to completion. *)
Fixpoint run_events (evs : list (MsgID * Telemetry)) : M unit :=
  match evs with
  | [] => ret tt
  | (m, t) :: rest => notify_callbacks m t ;; run_events rest
  end.

(** One delivered message takes [s] to [s']. *)
Definition step (s s' : BackyardFlyer) : Prop :=
  exists m t out, notify_callbacks m t s = Ok (tt, s', out).

(** The states the machine can be in, from [init]. *)
Inductive reachable : BackyardFlyer -> Prop :=
| reachable_init : reachable init
| reachable_step s s' : reachable s -> step s s' -> reachable s'.

(** The successor of a phase in the cycle of the mission. *)
Definition next_state (p : States) : States :=
  match p with
  | MANUAL => ARMING
  | ARMING => TAKEOFF
  | TAKEOFF => WAYPOINT
  | WAYPOINT => LANDING
  | LANDING => DISARMING
  | DISARMING => MANUAL
  end.

(** Modelled from the spec: [is_mission_complete], the query of the external
    interface ([== !in_mission]); the source reads [in_mission] directly. *)
Definition is_mission_complete (s : BackyardFlyer) : bool :=
  negb (in_mission s).

(** Whether a call ended in an exception. *)
Definition raises {A} (o : Outcome A) : bool :=
  match o with
  | Ok _ => false
  | Raise _ => true
  end.

(** The calls a callback made, none when it raised. *)
Definition emitted (o : Outcome (unit * BackyardFlyer * list Command))
  : list Command :=
  match o with
  | Ok (_, _, out) => out
  | Raise _ => []
  end.

(** Modelled from the spec: the plans its error taxonomy calls invalid, a
    non-finite component or an altitude that is not positive.  The source
    has no such test; this predicate only names the inputs concerned. *)
Definition invalid_plan (plan : list float) : bool :=
  existsb (fun x => negb (is_finite x)) plan
  || match nth_error plan 4 with
     | Some altitude => negb (0 <? altitude)%float
     | None => false
     end.

(** What the phase says about the waypoints still to visit. *)
Definition queue_bound (s : BackyardFlyer) : Prop :=
  match flight_state s with
  | WAYPOINT => length (all_waypoints s) <= 3
  | LANDING | DISARMING => all_waypoints s = []
  | _ => True
  end.

(** ** Concrete inputs *)

(** Telemetry of a vehicle at north [n], east [e] and altitude [a] over a
    home at altitude 0 (the local frame points down), moving at [(vn, ve)]
    over the ground. *)
Definition telemetry_at (n e a vn ve : float) : Telemetry :=
  mkTelemetry (mkVec3 n e (- a)) (mkVec3 vn ve 0) (mkVec3 0 0 a) (mkVec3 0 0 0).

Definition on_ground : Telemetry := telemetry_at 0 0 0 0 0.

(** The machine after the two state events that arm and take off. *)
Definition climbing : BackyardFlyer :=
  mkFlyer (mkVec3 0 0 3) [] true TAKEOFF.

(** The machine flying to the first corner of the box. *)
Definition first_leg : BackyardFlyer :=
  mkFlyer (mkVec3 20 0 3) [mkVec3 20 20 3; mkVec3 0 20 3; mkVec3 0 0 3]
          true WAYPOINT.

(** The machine flying to the last corner of the box. *)
Definition last_leg : BackyardFlyer :=
  mkFlyer (mkVec3 0 0 3) [] true WAYPOINT.

Definition descending : BackyardFlyer :=
  mkFlyer (mkVec3 0 0 3) [] true LANDING.

Definition landed : BackyardFlyer :=
  mkFlyer (mkVec3 0 0 3) [] true DISARMING.

(** A whole mission, message by message. *)
Definition mission : list (MsgID * Telemetry) :=
  [ (STATE, on_ground);
    (STATE, on_ground);
    (LOCAL_POSITION, telemetry_at 0 0 2.88 0 0);
    (LOCAL_POSITION, telemetry_at 19.5 0.2 3 1 0);
    (LOCAL_POSITION, telemetry_at 20 19.5 3 0 1);
    (LOCAL_POSITION, telemetry_at 0.5 20 3 (-1) 0);
    (LOCAL_POSITION, telemetry_at 0 0.5 3 0 (-1));
    (LOCAL_POSITION, telemetry_at 0 0.1 3 0 (-0.05));
    (LOCAL_VELOCITY, telemetry_at 0 0 1 0 0);
    (LOCAL_VELOCITY, telemetry_at 0 0 0.01 0 0);
    (STATE, on_ground);
    (STATE, on_ground) ]%float.

(** ** The course of a mission *)

(** The machine once the mission is over. *)
Definition completed : BackyardFlyer :=
  mkFlyer (mkVec3 0 0 3) [] false MANUAL.

(** The states of a mission, in the order the machine goes through them. *)
Definition itinerary : list BackyardFlyer :=
  [ init;
    mkFlyer (mkVec3 0 0 0) [] true ARMING;
    climbing;
    first_leg;
    mkFlyer (mkVec3 20 20 3) [mkVec3 0 20 3; mkVec3 0 0 3] true WAYPOINT;
    mkFlyer (mkVec3 0 20 3) [mkVec3 0 0 3] true WAYPOINT;
    last_leg;
    descending;
    landed;
    completed ].

(** The calls of a whole mission, with the home position [home] that the
    arming transition read from the telemetry. *)
Definition script (home : Vec3) : list Command :=
  [ take_control; arm; set_home_position (c0 home) (c1 home) (c2 home);
    takeoff 3;
    cmd_position 20 0 3 0;
    cmd_position 20 20 3 0;
    cmd_position 0 20 3 0;
    cmd_position 0 0 3 0;
    land;
    disarm;
    release_control; stop ].

(** How many calls of the script a state has behind it. *)
Definition stage (s : BackyardFlyer) : nat :=
  match flight_state s with
  | MANUAL => if in_mission s then 0 else 12
  | ARMING => 3
  | TAKEOFF => 4
  | WAYPOINT => 8 - length (all_waypoints s)
  | LANDING => 9
  | DISARMING => 10
  end.

(** How many transitions a state has behind it. *)
Definition rank (s : BackyardFlyer) : nat :=
  match flight_state s with
  | MANUAL => if in_mission s then 0 else 9
  | ARMING => 1
  | TAKEOFF => 2
  | WAYPOINT => 6 - length (all_waypoints s)
  | LANDING => 7
  | DISARMING => 8
  end.

(** A mission in nine messages: each one arrives when its transition is
    due, the vehicle still and exactly on its target. *)
Definition direct_mission : list (MsgID * Telemetry) :=
  [ (STATE, on_ground);
    (STATE, on_ground);
    (LOCAL_POSITION, telemetry_at 0 0 3 0 0);
    (LOCAL_POSITION, telemetry_at 20 0 3 0 0);
    (LOCAL_POSITION, telemetry_at 20 20 3 0 0);
    (LOCAL_POSITION, telemetry_at 0 20 3 0 0);
    (LOCAL_POSITION, telemetry_at 0 0 3 0 0);
    (LOCAL_VELOCITY, on_ground);
    (STATE, on_ground) ]%float.

(** Telemetry whose every component is NaN. *)
Definition lost : Telemetry :=
  mkTelemetry (mkVec3 nan nan nan) (mkVec3 nan nan nan)
              (mkVec3 nan nan nan) (mkVec3 nan nan nan).

(** ** Running the monad *)

Ltac run :=
  cbv [local_position_callback velocity_callback state_callback
       notify_callbacks waypoint_transition landing_transition
       disarming_transition manual_transition arming_transition
       takeoff_transition bind gets modify emit ret raise lift
       set_target_position set_all_waypoints set_in_mission
       set_flight_state set_c2
       target_position all_waypoints in_mission flight_state
       negb app];
  cbn [nth_error flight_plan_coordinates].

(** ** Order of floats *)

(** Swapping the arguments of the comparison of two floats reverses its
    answer; a comparison with NaN has none either way. *)
Lemma SFcompare_swap (x y : spec_float) :
  SFcompare y x = option_map CompOpp (SFcompare x y).
Proof.
  destruct x as [sx|sx| |sx mx ex], y as [sy|sy| |sy my ey]; simpl;
    try reflexivity; try (destruct sx; reflexivity);
    try (destruct sy; reflexivity); try (destruct sx, sy; reflexivity).
  assert (Hm : Pos.compare_cont Eq my mx = CompOpp (Pos.compare_cont Eq mx my))
    by (rewrite Pos.compare_cont_antisym; reflexivity).
  destruct sx, sy; try reflexivity; f_equal;
    rewrite (Z.compare_antisym ex ey), Hm;
    destruct (ex ?= ey)%Z; simpl; try reflexivity;
    destruct (Pos.compare_cont Eq mx my); reflexivity.
Qed.

(** [a <= b] excludes [b < a]. *)
Lemma leb_true_ltb_false (a b : float) :
  (a <=? b)%float = true -> (b <? a)%float = false.
Proof.
  rewrite leb_spec, ltb_spec. unfold SFleb, SFltb.
  rewrite (SFcompare_swap (Prim2SF a) (Prim2SF b)).
  destruct (SFcompare (Prim2SF a) (Prim2SF b)) as [[ | | ]|]; simpl;
    congruence.
Qed.

(** ** The callbacks, case by case *)

Section Callbacks.

Variables (s : BackyardFlyer) (t : Telemetry).

(** In TAKEOFF the position callback tests the altitude, and past 95% of
    the target altitude it stores the box and takes its first corner. *)
Lemma local_position_callback_takeoff :
  flight_state s = TAKEOFF ->
  local_position_callback t s =
  if (0.95 * c2 (target_position s) <? -1 * c2 (local_position t))%float
  then Ok (tt,
           mkFlyer (mkVec3 20 0 3)
                   [mkVec3 20 20 3; mkVec3 0 20 3; mkVec3 0 0 3]
                   (in_mission s) WAYPOINT,
           [cmd_position 20 0 3 0])
  else Ok (tt, s, []).
Proof.
  destruct s as [tp wps im fs]; simpl; intros ->. run.
  destruct (_ <? _)%float; reflexivity.
Qed.

(** In WAYPOINT, within one unit of the target, it takes the next
    waypoint if there is one and lands once the vehicle is slow. *)
Lemma local_position_callback_waypoint :
  flight_state s = WAYPOINT ->
  local_position_callback t s =
  if (planar_distance (target_position s) (local_position t) <? 1.0)%float
  then match all_waypoints s with
       | w :: rest =>
           Ok (tt, mkFlyer w rest (in_mission s) WAYPOINT,
               [cmd_position (c0 w) (c1 w) (c2 w) 0])
       | [] =>
           if (planar_speed (local_velocity t) <? 0.1)%float
           then Ok (tt, mkFlyer (target_position s) [] (in_mission s) LANDING,
                    [land])
           else Ok (tt, s, [])
       end
  else Ok (tt, s, []).
Proof.
  destruct s as [tp wps im fs]; simpl; intros ->. run.
  destruct (_ <? 1)%float; [|reflexivity].
  destruct wps as [|w rest]; simpl; [|reflexivity].
  destruct (_ <? _)%float; reflexivity.
Qed.

(** In the other phases it does nothing. *)
Lemma local_position_callback_other :
  flight_state s <> TAKEOFF -> flight_state s <> WAYPOINT ->
  local_position_callback t s = Ok (tt, s, []).
Proof.
  destruct s as [tp wps im fs]; simpl; intros H1 H2.
  destruct fs; try reflexivity; congruence.
Qed.

(** In LANDING the velocity callback disarms when both altitude tests
    pass. *)
Lemma velocity_callback_landing :
  flight_state s = LANDING ->
  velocity_callback t s =
  if ((c2 (global_position t) - c2 (global_home t) <? 0.1)
      && (abs (c2 (local_position t)) <? 0.05))%float
  then Ok (tt,
           mkFlyer (target_position s) (all_waypoints s) (in_mission s)
                   DISARMING,
           [disarm])
  else Ok (tt, s, []).
Proof.
  destruct s as [tp wps im fs]; simpl; intros ->. run.
  destruct (_ - _ <? _)%float; simpl; [|reflexivity].
  destruct (_ <? _)%float; reflexivity.
Qed.

Lemma velocity_callback_other :
  flight_state s <> LANDING -> velocity_callback t s = Ok (tt, s, []).
Proof.
  destruct s as [tp wps im fs]; simpl; intros H.
  destruct fs; try reflexivity; congruence.
Qed.

(** The state callback, by mission flag and phase. *)
Lemma state_callback_eq :
  state_callback t s =
  if in_mission s then
    match flight_state s with
    | MANUAL =>
        Ok (tt,
            mkFlyer (target_position s) (all_waypoints s) true ARMING,
            [take_control; arm;
             set_home_position (c0 (global_position t))
                               (c1 (global_position t))
                               (c2 (global_position t))])
    | ARMING =>
        Ok (tt,
            mkFlyer (mkVec3 (c0 (target_position s))
                            (c1 (target_position s)) 3)
                    (all_waypoints s) true TAKEOFF,
            [takeoff 3])
    | DISARMING =>
        Ok (tt,
            mkFlyer (target_position s) (all_waypoints s) false MANUAL,
            [release_control; stop])
    | _ => Ok (tt, s, [])
    end
  else Ok (tt, s, []).
Proof.
  destruct s as [tp wps im fs]; simpl.
  destruct im, fs; reflexivity.
Qed.

End Callbacks.

(** ** Concrete runs *)

Example calculate_box_run :
  calculate_box =
  Ok [ mkVec3 20 0 3; mkVec3 20 20 3; mkVec3 0 20 3; mkVec3 0 0 3 ]%float.
Proof. reflexivity. Qed.

(** The second product is added fused: rounding both products first would
    give the norms 1.0 and 0.1 here. *)
Example norm2_fused :
  norm2 (-0.4336456836623859) (-0.9010834706290988) = 0.9999999999999999%float
  /\ norm2 0.019 0.09817840903172143 = 0.09999999999999999%float
  /\ (sqrt (0.019 * 0.019 + 0.09817840903172143 * 0.09817840903172143) = 0.1)%float
  /\ norm2 3 4 = 5%float.
Proof. repeat split; vm_compute; reflexivity. Qed.

(** Pops and landings right at the thresholds 1.0 and 0.1. *)
Example threshold_runs :
  local_position_callback
    (mkTelemetry (mkVec3 0 0 (-3)) (mkVec3 1 0 0) (mkVec3 0 0 3) (mkVec3 0 0 0))
    (mkFlyer (mkVec3 (-0.4336456836623859) (-0.9010834706290988) 3)
             [mkVec3 20 20 3] true WAYPOINT) =
  Ok (tt, mkFlyer (mkVec3 20 20 3) [] true WAYPOINT, [cmd_position 20 20 3 0])
  /\ local_position_callback
       (mkTelemetry (mkVec3 0 0 (-3)) (mkVec3 0.019 0.09817840903172143 0)
                    (mkVec3 0 0 3) (mkVec3 0 0 0))
       last_leg =
     Ok (tt, descending, [land])
  /\ local_position_callback (telemetry_at 0.6 0.8 3 0 0) last_leg =
     Ok (tt, last_leg, [])
  /\ local_position_callback (telemetry_at 0 0 3 0.06 0.08) last_leg =
     Ok (tt, last_leg, []).
Proof. repeat split; vm_compute; reflexivity. Qed.

Example mission_run :
  run_events mission init =
  Ok (tt,
      mkFlyer (mkVec3 0 0 3) [] false MANUAL,
      [ take_control; arm; set_home_position 0 0 0;
        takeoff 3;
        cmd_position 20 0 3 0;
        cmd_position 20 20 3 0;
        cmd_position 0 20 3 0;
        cmd_position 0 0 3 0;
        land;
        disarm;
        release_control; stop ]%float).
Proof. vm_compute. reflexivity. Qed.

(** ** The mission planner *)

(** C5.  [calculate_box] is a function of the plan alone: for every plan
    [[x_start, x_end, y_start, y_end, altitude]], whatever its altitude (so
    for every positive one), it returns exactly four waypoints, each at the
    plan's altitude, in the order (x_end, y_start), (x_end, y_end),
    (x_start, y_end), (x_start, y_start); for the plan of the program,
    [[0, 20, 0, 20, 3]], these are (20,0,3), (20,20,3), (0,20,3), (0,0,3). *)
Theorem calculate_box_corners :
  (forall x_start x_end y_start y_end altitude : float,
      exists box,
        box_of_plan [x_start; x_end; y_start; y_end; altitude] = Ok box /\
        length box = 4 /\
        Forall (fun w => c2 w = altitude) box /\
        map (fun w => (c0 w, c1 w)) box =
        [(x_end, y_start); (x_end, y_end); (x_start, y_end); (x_start, y_start)])
  /\ flight_plan_coordinates = [0; 20; 0; 20; 3]%float
  /\ calculate_box =
     Ok [mkVec3 20 0 3; mkVec3 20 20 3; mkVec3 0 20 3; mkVec3 0 0 3]%float.
Proof.
  split; [|split; reflexivity].
  intros xs xe ys ye alt. eexists. split; [reflexivity|].
  split; [reflexivity|]. split; [|reflexivity].
  repeat constructor.
Qed.

(** ** Position updates *)

(** C1.  In TAKEOFF, a position update with
    [-1 * local_position[2] > 0.95 * target_position[2]] stores the four
    waypoints of [calculate_box], pops the first as the new target, commands
    that position and enters WAYPOINT with three waypoints left; when the
    comparison fails the machine is unchanged and nothing is emitted. *)
Theorem takeoff_position_update (s : BackyardFlyer) (t : Telemetry) :
  flight_state s = TAKEOFF ->
  let reached :=
    (0.95 * c2 (target_position s) <? -1 * c2 (local_position t))%float in
  (reached = true ->
   exists w rest,
     calculate_box = Ok (w :: rest) /\
     length (w :: rest) = 4 /\
     length rest = 3 /\
     local_position_callback t s =
     Ok (tt, mkFlyer w rest (in_mission s) WAYPOINT,
         [cmd_position (c0 w) (c1 w) (c2 w) 0]))
  /\ (reached = false -> local_position_callback t s = Ok (tt, s, [])).
Proof.
  intros Hfs reached.
  rewrite (local_position_callback_takeoff s t Hfs). fold reached.
  split; intros ->; [|reflexivity].
  do 2 eexists. repeat split; reflexivity.
Qed.

Lemma takeoff_position_update_witness :
  flight_state climbing = TAKEOFF /\
  (- c2 (local_position (telemetry_at 0 0 2.88 0 0)) = 0.96 * 3)%float /\
  local_position_callback (telemetry_at 0 0 2.88 0 0) climbing =
  Ok (tt, first_leg, [cmd_position 20 0 3 0]).
Proof.
  split; [reflexivity|]. split; [reflexivity|].
  destruct (takeoff_position_update climbing (telemetry_at 0 0 2.88 0 0)
              eq_refl) as [Hgo _].
  destruct (Hgo eq_refl) as (w & rest & Hbox & _ & _ & Hrun).
  injection Hbox as <- <-. exact Hrun.
Defined.

(** C2.  In WAYPOINT with a waypoint left, a position update at planar
    distance below 1.0 of the target pops the front waypoint as the new
    target, commands that position and stays in WAYPOINT, the queue one
    shorter; at planar distance 1.0 or more the machine is unchanged and
    nothing is emitted. *)
Theorem waypoint_position_update
  (s : BackyardFlyer) (t : Telemetry) (w : Vec3) (rest : list Vec3) :
  flight_state s = WAYPOINT ->
  all_waypoints s = w :: rest ->
  let d := planar_distance (target_position s) (local_position t) in
  ((d <? 1.0)%float = true ->
   local_position_callback t s =
   Ok (tt, mkFlyer w rest (in_mission s) WAYPOINT,
       [cmd_position (c0 w) (c1 w) (c2 w) 0])
   /\ length (all_waypoints s) = S (length rest))
  /\ ((1.0 <=? d)%float = true ->
      local_position_callback t s = Ok (tt, s, [])).
Proof.
  intros Hfs Hq d.
  rewrite (local_position_callback_waypoint s t Hfs), Hq. fold d.
  split.
  - intros ->. split; reflexivity.
  - intros Hfar. rewrite (leb_true_ltb_false _ _ Hfar). reflexivity.
Qed.

Lemma waypoint_position_update_witness :
  local_position_callback (telemetry_at 19.5 0.2 3 1 0) first_leg =
  Ok (tt,
      mkFlyer (mkVec3 20 20 3) [mkVec3 0 20 3; mkVec3 0 0 3] true WAYPOINT,
      [cmd_position 20 20 3 0])
  /\ local_position_callback (telemetry_at 19 0 3 1 0) first_leg =
     Ok (tt, first_leg, []).
Proof.
  destruct (waypoint_position_update first_leg (telemetry_at 19.5 0.2 3 1 0)
              (mkVec3 20 20 3) [mkVec3 0 20 3; mkVec3 0 0 3] eq_refl eq_refl)
    as [Hnear _].
  destruct (waypoint_position_update first_leg (telemetry_at 19 0 3 1 0)
              (mkVec3 20 20 3) [mkVec3 0 20 3; mkVec3 0 0 3] eq_refl eq_refl)
    as [_ Hfar].
  split; [exact (proj1 (Hnear eq_refl)) | exact (Hfar eq_refl)].
Defined.

(** A run of position updates that each leave the machine alone leaves it
    alone. *)
Lemma run_events_idle (s : BackyardFlyer) (evs : list (MsgID * Telemetry)) :
  Forall (fun e => notify_callbacks (fst e) (snd e) s = Ok (tt, s, [])) evs ->
  run_events evs s = Ok (tt, s, []).
Proof.
  induction 1 as [|[m t] evs Hhd _ IH]; [reflexivity|].
  simpl in Hhd. cbn [run_events]. unfold bind. rewrite Hhd, IH. reflexivity.
Qed.

(** C4.  In WAYPOINT with no waypoint left and a position update at planar
    distance below 1.0 of the target, the machine enters LANDING and emits
    [land] exactly when the planar speed is below 0.1; with a planar speed of
    0.1 or more it is unchanged, and stays so over any run of position
    updates that all show such a speed. *)
Theorem landing_waits_for_low_speed (s : BackyardFlyer) (t : Telemetry) :
  flight_state s = WAYPOINT ->
  all_waypoints s = [] ->
  (planar_distance (target_position s) (local_position t) <? 1.0)%float = true ->
  let slow := (planar_speed (local_velocity t) <? 0.1)%float in
  (exists s' out,
      local_position_callback t s = Ok (tt, s', out) /\
      (flight_state s' = LANDING /\ out = [land] <-> slow = true) /\
      (slow = true ->
       s' = mkFlyer (target_position s) [] (in_mission s) LANDING) /\
      ((0.1 <=? planar_speed (local_velocity t))%float = true ->
       s' = s /\ out = []))
  /\ (forall ts : list Telemetry,
         Forall (fun t' =>
                   (0.1 <=? planar_speed (local_velocity t'))%float = true) ts ->
         run_events (map (pair LOCAL_POSITION) ts) s = Ok (tt, s, [])).
Proof.
  intros Hfs Hq Hnear slow. split.
  - rewrite (local_position_callback_waypoint s t Hfs), Hq, Hnear. fold slow.
    destruct slow eqn:Hslow; do 2 eexists; (split; [reflexivity|]).
    + split; [|split].
      * split; [reflexivity | intros _; split; reflexivity].
      * reflexivity.
      * intros Hfast. apply leb_true_ltb_false in Hfast.
        unfold slow in Hslow. congruence.
    + split; [|split].
      * split; [|discriminate]. intros [Hl _]. simpl in Hl. congruence.
      * discriminate.
      * intros _. split; reflexivity.
  - intros ts Hts. apply run_events_idle.
    apply Forall_map. apply Forall_impl with (2 := Hts).
    intros t' Hfast. cbn [fst snd notify_callbacks].
    rewrite (local_position_callback_waypoint s t' Hfs), Hq.
    rewrite (leb_true_ltb_false _ _ Hfast).
    destruct (planar_distance (target_position s) (local_position t') <? 1)%float;
      reflexivity.
Qed.

Lemma landing_waits_for_low_speed_witness :
  local_position_callback (telemetry_at 0 0.1 3 0 (-0.05)) last_leg =
  Ok (tt, descending, [land])
  /\ run_events [ (LOCAL_POSITION, telemetry_at 0 0.5 3 0 (-1));
                  (LOCAL_POSITION, telemetry_at 0 0.2 3 0 (-0.1)) ] last_leg =
     Ok (tt, last_leg, []).
Proof.
  destruct (landing_waits_for_low_speed last_leg
              (telemetry_at 0 0.1 3 0 (-0.05)) eq_refl eq_refl eq_refl)
    as [(s' & out & Hrun & Hiff & Hslow & _) Hwait].
  split.
  - rewrite Hrun, (Hslow eq_refl).
    destruct (proj2 Hiff eq_refl) as [_ ->]. reflexivity.
  - apply (Hwait [telemetry_at 0 0.5 3 0 (-1); telemetry_at 0 0.2 3 0 (-0.1)]).
    repeat constructor.
Defined.

(** ** Velocity updates *)

(** C3.  In LANDING, a velocity update enters DISARMING and emits [disarm]
    exactly when both tests pass at once: the global altitude less the home
    altitude is below 0.1, and the absolute local vertical position is below
    0.05.  When either test fails the machine is unchanged and nothing is
    emitted. *)
Theorem landing_velocity_update (s : BackyardFlyer) (t : Telemetry) :
  flight_state s = LANDING ->
  let near_home :=
    (c2 (global_position t) - c2 (global_home t) <? 0.1)%float in
  let near_ground := (abs (c2 (local_position t)) <? 0.05)%float in
  exists s' out,
    velocity_callback t s = Ok (tt, s', out) /\
    (flight_state s' = DISARMING /\ out = [disarm] <->
     near_home = true /\ near_ground = true) /\
    (near_home = true /\ near_ground = true ->
     s' = mkFlyer (target_position s) (all_waypoints s) (in_mission s)
                  DISARMING) /\
    (near_home = false \/ near_ground = false -> s' = s /\ out = []).
Proof.
  intros Hfs near_home near_ground.
  rewrite (velocity_callback_landing s t Hfs).
  fold near_home near_ground.
  destruct near_home, near_ground; simpl; do 2 eexists;
    (split; [reflexivity|]); (split; [|split]);
    try (intros [? | ?]; discriminate);
    try (intros [? ?]; discriminate);
    try (intros _; split; reflexivity);
    try (intros _; reflexivity);
    try (split; [intros [Hd _]; simpl in Hd; congruence
                | intros [? ?]; discriminate]).
  split; intros _; split; reflexivity.
Qed.

Lemma landing_velocity_update_witness :
  velocity_callback (telemetry_at 0 0 0.01 0 0) descending =
  Ok (tt, landed, [disarm])
  /\ velocity_callback
       (mkTelemetry (mkVec3 0 0 (-0.01)) (mkVec3 0 0 0)
                    (mkVec3 0 0 5) (mkVec3 0 0 0)) descending =
     Ok (tt, descending, [])
  /\ velocity_callback
       (mkTelemetry (mkVec3 0 0 (-2)) (mkVec3 0 0 0)
                    (mkVec3 0 0 0.01) (mkVec3 0 0 0)) descending =
     Ok (tt, descending, []).
Proof.
  split; [|split].
  - destruct (landing_velocity_update descending (telemetry_at 0 0 0.01 0 0)
                eq_refl) as (s' & out & Hrun & Hiff & Hboth & _).
    rewrite Hrun, (Hboth (conj eq_refl eq_refl)).
    destruct (proj2 Hiff (conj eq_refl eq_refl)) as [_ ->]. reflexivity.
  - destruct (landing_velocity_update descending
                (mkTelemetry (mkVec3 0 0 (-0.01)) (mkVec3 0 0 0)
                             (mkVec3 0 0 5) (mkVec3 0 0 0))
                eq_refl) as (s' & out & Hrun & _ & _ & Hone).
    rewrite Hrun. destruct (Hone (or_introl eq_refl)) as [-> ->]. reflexivity.
  - destruct (landing_velocity_update descending
                (mkTelemetry (mkVec3 0 0 (-2)) (mkVec3 0 0 0)
                             (mkVec3 0 0 0.01) (mkVec3 0 0 0))
                eq_refl) as (s' & out & Hrun & _ & _ & Hone).
    rewrite Hrun. destruct (Hone (or_intror eq_refl)) as [-> ->]. reflexivity.
Defined.

(** ** State updates *)

(** C6.  A state event does nothing when [in_mission] is false.  Otherwise,
    in MANUAL it enters ARMING after [take_control], [arm] and
    [set_home_position] at the current global position; in ARMING it enters
    TAKEOFF, sets the target altitude to the plan's altitude (3.0) and emits
    [takeoff] to that altitude; in DISARMING it enters MANUAL, emits
    [release_control] (and stops the connection) and clears [in_mission]; in
    TAKEOFF, WAYPOINT and LANDING it does nothing.  So from MANUAL with
    [in_mission] true, three state events give ARMING, then TAKEOFF, then no
    change. *)
Theorem state_update :
  (forall s t, in_mission s = false -> state_callback t s = Ok (tt, s, []))
  /\ (forall s t,
         in_mission s = true -> flight_state s = MANUAL ->
         state_callback t s =
         Ok (tt,
             mkFlyer (target_position s) (all_waypoints s) true ARMING,
             [take_control; arm;
              set_home_position (c0 (global_position t))
                                (c1 (global_position t))
                                (c2 (global_position t))]))
  /\ (forall s t,
         in_mission s = true -> flight_state s = ARMING ->
         nth_error flight_plan_coordinates 4 = Some 3%float /\
         state_callback t s =
         Ok (tt,
             mkFlyer (mkVec3 (c0 (target_position s))
                             (c1 (target_position s)) 3)
                     (all_waypoints s) true TAKEOFF,
             [takeoff 3]))
  /\ (forall s t,
         in_mission s = true -> flight_state s = DISARMING ->
         state_callback t s =
         Ok (tt,
             mkFlyer (target_position s) (all_waypoints s) false MANUAL,
             [release_control; stop]))
  /\ (forall s t,
         flight_state s = TAKEOFF \/ flight_state s = WAYPOINT \/
         flight_state s = LANDING ->
         state_callback t s = Ok (tt, s, []))
  /\ (forall s t1 t2 t3,
         in_mission s = true -> flight_state s = MANUAL ->
         exists s1 out1 s2 out2,
           state_callback t1 s = Ok (tt, s1, out1) /\
           flight_state s1 = ARMING /\
           state_callback t2 s1 = Ok (tt, s2, out2) /\
           flight_state s2 = TAKEOFF /\
           state_callback t3 s2 = Ok (tt, s2, [])).
Proof.
  repeat apply conj.
  - intros s t Him. rewrite state_callback_eq, Him. reflexivity.
  - intros s t Him Hfs. rewrite state_callback_eq, Him, Hfs. reflexivity.
  - intros s t Him Hfs. split; [reflexivity|].
    rewrite state_callback_eq, Him, Hfs. reflexivity.
  - intros s t Him Hfs. rewrite state_callback_eq, Him, Hfs. reflexivity.
  - intros s t Hfs. rewrite state_callback_eq.
    destruct (in_mission s); [|reflexivity].
    destruct Hfs as [-> | [-> | ->]]; reflexivity.
  - intros s t1 t2 t3 Him Hfs.
    rewrite (state_callback_eq s t1), Him, Hfs.
    do 4 eexists. split; [reflexivity|]. split; [reflexivity|].
    rewrite !state_callback_eq. cbn.
    split; [reflexivity|]. split; reflexivity.
Qed.

Lemma state_update_witness :
  exists s1 out1 s2 out2,
    state_callback on_ground init = Ok (tt, s1, out1) /\
    flight_state s1 = ARMING /\
    state_callback on_ground s1 = Ok (tt, s2, out2) /\
    flight_state s2 = TAKEOFF /\
    state_callback on_ground s2 = Ok (tt, s2, []).
Proof.
  exact (proj2 (proj2 (proj2 (proj2 (proj2 state_update))))
           init on_ground on_ground on_ground eq_refl eq_refl).
Defined.

(** Once the mission is over and the machine is back in MANUAL, no message
    changes it or makes it emit anything. *)
Lemma notify_callbacks_mission_over (s : BackyardFlyer) (m : MsgID) (t : Telemetry) :
  in_mission s = false -> flight_state s = MANUAL ->
  notify_callbacks m t s = Ok (tt, s, []).
Proof.
  intros Him Hfs. destruct m; cbn [notify_callbacks].
  - apply local_position_callback_other; congruence.
  - apply velocity_callback_other; congruence.
  - rewrite state_callback_eq, Him. reflexivity.
Qed.

(** C7.  The state event that takes DISARMING to MANUAL clears [in_mission],
    and from then on every run of messages, of any kind, leaves the machine
    unchanged and emits nothing: [in_mission] stays false and the mission
    stays complete. *)
Theorem mission_complete_forever (s : BackyardFlyer) (t : Telemetry) :
  flight_state s = DISARMING ->
  in_mission s = true ->
  exists s',
    state_callback t s = Ok (tt, s', [release_control; stop]) /\
    flight_state s' = MANUAL /\
    in_mission s' = false /\
    is_mission_complete s' = true /\
    forall evs : list (MsgID * Telemetry),
      run_events evs s' = Ok (tt, s', []).
Proof.
  intros Hfs Him. eexists. split.
  - rewrite state_callback_eq, Him, Hfs. reflexivity.
  - repeat split. intros evs. apply run_events_idle.
    apply Forall_forall. intros [m t'] _.
    apply notify_callbacks_mission_over; reflexivity.
Qed.

Lemma mission_complete_forever_witness :
  exists s',
    state_callback on_ground landed = Ok (tt, s', [release_control; stop]) /\
    flight_state s' = MANUAL /\
    in_mission s' = false /\
    is_mission_complete s' = true /\
    forall evs : list (MsgID * Telemetry),
      run_events evs s' = Ok (tt, s', []).
Proof.
  exact (mission_complete_forever landed on_ground eq_refl eq_refl).
Defined.

(** ** Every callback returns *)

(** Case analysis of a callback on an explicit machine: the equation of its
    phase, then the mission flag, the queue and each guard. *)
Ltac callback_cases :=
  cbn [notify_callbacks];
  first [ rewrite local_position_callback_takeoff by reflexivity
        | rewrite local_position_callback_waypoint by reflexivity
        | rewrite local_position_callback_other by (cbn; congruence)
        | rewrite velocity_callback_landing by reflexivity
        | rewrite velocity_callback_other by (cbn; congruence)
        | rewrite state_callback_eq ];
  cbn [target_position all_waypoints in_mission flight_state];
  repeat match goal with
         | |- context [match ?l with [] => _ | _ :: _ => _ end] => destruct l
         | |- context [if ?c then _ else _] => destruct c
         end.

(** No callback raises: a message always takes the machine to a next
    state. *)
Lemma notify_callbacks_total (m : MsgID) (t : Telemetry) (s : BackyardFlyer) :
  exists s' out, notify_callbacks m t s = Ok (tt, s', out).
Proof.
  destruct s as [tp wps im fs]; destruct m, fs; callback_cases;
    do 2 eexists; reflexivity.
Qed.

(** A message moves the phase by at most one place along the cycle. *)
Lemma notify_callbacks_phase (m : MsgID) (t : Telemetry) (s s' : BackyardFlyer)
      (out : list Command) :
  notify_callbacks m t s = Ok (tt, s', out) ->
  flight_state s' = flight_state s \/
  flight_state s' = next_state (flight_state s).
Proof.
  destruct s as [tp wps im fs]; destruct m, fs; callback_cases;
    intros [= <- <-]; cbn; auto.
Qed.

(** A message keeps the bound on the queue. *)
Lemma notify_callbacks_queue_bound (m : MsgID) (t : Telemetry)
      (s s' : BackyardFlyer) (out : list Command) :
  notify_callbacks m t s = Ok (tt, s', out) ->
  queue_bound s -> queue_bound s'.
Proof.
  unfold queue_bound.
  destruct s as [tp wps im fs]; destruct m, fs; callback_cases;
    intros [= <- <-]; cbn; intros Hb; cbn in Hb; auto; try lia;
    try discriminate.
Qed.

(** The number of calls a message makes. *)
Lemma notify_callbacks_emitted (m : MsgID) (t : Telemetry) (s : BackyardFlyer) :
  length (emitted (notify_callbacks m t s)) <=
  match m with STATE => 3 | _ => 1 end.
Proof.
  destruct s as [tp wps im fs]; destruct m, fs; callback_cases; cbn; lia.
Qed.

(** ** Plans and errors *)

(** C8, as stated, fails: a plan with a negative altitude, or an infinite
    one, is answered with four waypoints and no error. *)
Lemma invalid_plan_accepted :
  invalid_plan [0; 20; 0; 20; -1]%float = true /\
  box_of_plan [0; 20; 0; 20; -1]%float =
  Ok [mkVec3 20 0 (-1); mkVec3 20 20 (-1); mkVec3 0 20 (-1); mkVec3 0 0 (-1)]%float /\
  raises (box_of_plan [0; 20; 0; 20; -1]%float) = false /\
  invalid_plan [0; 20; 0; 20; infinity]%float = true /\
  raises (box_of_plan [0; 20; 0; 20; infinity]%float) = false.
Proof. repeat split; reflexivity. Qed.

(** C8, amended.  The planner does not validate its plan: for every plan of
    five components, whatever their values, [calculate_box] returns its four
    waypoints and raises nothing.  With the program's plan no callback
    raises, in any state and on any telemetry, and telemetry that the
    current phase does not wait for leaves the machine unchanged and emits
    nothing. *)
Theorem no_plan_validation :
  (forall x_start x_end y_start y_end altitude : float,
      box_of_plan [x_start; x_end; y_start; y_end; altitude] =
      Ok [mkVec3 x_end y_start altitude; mkVec3 x_end y_end altitude;
          mkVec3 x_start y_end altitude; mkVec3 x_start y_start altitude] /\
      raises (box_of_plan [x_start; x_end; y_start; y_end; altitude]) = false)
  /\ (forall m t s, raises (notify_callbacks m t s) = false)
  /\ (forall s t,
         flight_state s <> TAKEOFF -> flight_state s <> WAYPOINT ->
         local_position_callback t s = Ok (tt, s, []))
  /\ (forall s t,
         flight_state s <> LANDING -> velocity_callback t s = Ok (tt, s, []))
  /\ (forall s t,
         flight_state s = TAKEOFF \/ flight_state s = WAYPOINT \/
         flight_state s = LANDING ->
         state_callback t s = Ok (tt, s, [])).
Proof.
  repeat apply conj.
  - intros. split; reflexivity.
  - intros m t s. destruct (notify_callbacks_total m t s) as (s' & out & ->).
    reflexivity.
  - intros s t. apply local_position_callback_other.
  - intros s t. apply velocity_callback_other.
  - intros s t Hfs. rewrite state_callback_eq.
    destruct (in_mission s); [|reflexivity].
    destruct Hfs as [-> | [-> | ->]]; reflexivity.
Qed.

Lemma no_plan_validation_witness :
  local_position_callback (telemetry_at 0 0 0.01 0 0) descending =
  Ok (tt, descending, [])
  /\ velocity_callback (telemetry_at 0 0 2.88 0 0) climbing =
     Ok (tt, climbing, [])
  /\ state_callback (telemetry_at 19.5 0.2 3 1 0) first_leg =
     Ok (tt, first_leg, []).
Proof.
  destruct no_plan_validation as (_ & _ & Hpos & Hvel & Hstate).
  split; [|split].
  - apply Hpos; discriminate.
  - apply Hvel; discriminate.
  - apply Hstate. right. left. reflexivity.
Defined.

(** ** Calls per message *)

(** C9, as stated, fails: the state event that arms the vehicle makes three
    calls. *)
Lemma three_commands_on_arming :
  state_callback on_ground init =
  Ok (tt, mkFlyer (mkVec3 0 0 0) [] true ARMING,
      [take_control; arm; set_home_position 0 0 0])
  /\ ~ length (emitted (state_callback on_ground init)) <= 1.
Proof. split; [reflexivity|]. cbn. lia. Qed.

(** C9, amended.  Every callback returns, in every state and on every
    telemetry.  The position callback makes at most one call (none, one
    [cmd_position] or one [land]) and the velocity callback at most one
    (none or one [disarm]).  The state callback makes at most three:
    [take_control], [arm] and [set_home_position] at the current global
    position when it arms, one [takeoff] when it takes off,
    [release_control] and then the stop of the connection when it returns
    to manual, and none otherwise. *)
Theorem commands_per_message (s : BackyardFlyer) (t : Telemetry) :
  (exists s' out,
      local_position_callback t s = Ok (tt, s', out) /\ length out <= 1 /\
      (out = [] \/ out = [land] \/
       exists north east altitude,
         out = [cmd_position north east altitude 0]))
  /\ (exists s' out,
         velocity_callback t s = Ok (tt, s', out) /\ length out <= 1 /\
         (out = [] \/ out = [disarm]))
  /\ (exists s' out,
         state_callback t s = Ok (tt, s', out) /\ length out <= 3 /\
         out = if in_mission s then
                 match flight_state s with
                 | MANUAL =>
                     [take_control; arm;
                      set_home_position (c0 (global_position t))
                                        (c1 (global_position t))
                                        (c2 (global_position t))]
                 | ARMING => [takeoff 3]
                 | DISARMING => [release_control; stop]
                 | _ => []
                 end
               else []).
Proof.
  split; [|split].
  - change (local_position_callback t s)
      with (notify_callbacks LOCAL_POSITION t s).
    destruct s as [tp wps im fs]; destruct fs; callback_cases;
      do 2 eexists; (split; [reflexivity|]); (split; [cbn; lia|]);
      first [ left; reflexivity
            | right; left; reflexivity
            | right; right; do 3 eexists; reflexivity ].
  - change (velocity_callback t s) with (notify_callbacks LOCAL_VELOCITY t s).
    destruct s as [tp wps im fs]; destruct fs; callback_cases;
      do 2 eexists; (split; [reflexivity|]); (split; [cbn; lia|]);
      first [ left; reflexivity | right; reflexivity ].
  - rewrite state_callback_eq.
    destruct (in_mission s), (flight_state s);
      do 2 eexists; (split; [reflexivity|]); (split; [cbn; lia | reflexivity]).
Qed.

(** ** The order of the phases *)

(** C10.  Every callback returns, and leaves the phase where it is or moves
    it to the next one in the cycle MANUAL, ARMING, TAKEOFF, WAYPOINT,
    LANDING, DISARMING, MANUAL.  In every state the machine reaches from
    its initial one the queue is empty in LANDING and DISARMING and holds at
    most three waypoints in WAYPOINT. *)
Theorem phase_order :
  (forall m t s,
      exists s' out,
        notify_callbacks m t s = Ok (tt, s', out) /\
        (flight_state s' = flight_state s \/
         flight_state s' = next_state (flight_state s)))
  /\ (forall s,
         reachable s ->
         (flight_state s = LANDING \/ flight_state s = DISARMING ->
          all_waypoints s = []) /\
         (flight_state s = WAYPOINT -> length (all_waypoints s) <= 3)).
Proof.
  split.
  - intros m t s. destruct (notify_callbacks_total m t s) as (s' & out & E).
    exists s', out. split; [exact E|].
    exact (notify_callbacks_phase m t s s' out E).
  - intros s Hr.
    assert (Hb : queue_bound s).
    { induction Hr as [|s s' _ IH (m & t & out & E)].
      - exact I.
      - exact (notify_callbacks_queue_bound m t s s' out E IH). }
    unfold queue_bound in Hb. split.
    + intros [Hfs | Hfs]; rewrite Hfs in Hb; exact Hb.
    + intros Hfs. rewrite Hfs in Hb. exact Hb.
Qed.

Lemma phase_order_witness :
  reachable first_leg /\ length (all_waypoints first_leg) <= 3.
Proof.
  assert (Hr : reachable first_leg).
  { apply reachable_step with (s := climbing).
    - apply reachable_step
        with (s := mkFlyer (mkVec3 0 0 0) [] true ARMING).
      + apply reachable_step with (s := init); [apply reachable_init|].
        exists STATE, on_ground,
          [take_control; arm; set_home_position 0 0 0]. reflexivity.
      + exists STATE, on_ground, [takeoff 3]. reflexivity.
    - exists LOCAL_POSITION, (telemetry_at 0 0 2.88 0 0),
        [cmd_position 20 0 3 0]. reflexivity. }
  split; [exact Hr|].
  exact (proj2 (proj2 phase_order first_leg Hr) eq_refl).
Defined.

(** ** Runs *)

(** A run that starts with a message is that message's callback, then the
    rest of the run. *)
Lemma run_events_cons (m : MsgID) (t : Telemetry) (evs : list (MsgID * Telemetry))
      (s s1 s2 : BackyardFlyer) (out1 out2 : list Command) :
  notify_callbacks m t s = Ok (tt, s1, out1) ->
  run_events evs s1 = Ok (tt, s2, out2) ->
  run_events ((m, t) :: evs) s = Ok (tt, s2, out1 ++ out2).
Proof.
  intros E1 E2. cbn [run_events]. unfold bind. rewrite E1, E2. reflexivity.
Qed.

(** No run raises. *)
Lemma run_events_total (evs : list (MsgID * Telemetry)) :
  forall s, exists s' out, run_events evs s = Ok (tt, s', out).
Proof.
  induction evs as [|[m t] evs IH]; intros s.
  - exists s, []. reflexivity.
  - destruct (notify_callbacks_total m t s) as (s1 & out1 & E1).
    destruct (IH s1) as (s2 & out2 & E2).
    exists s2, (out1 ++ out2). exact (run_events_cons _ _ _ _ _ _ _ _ E1 E2).
Qed.

(** A run splits at its first message. *)
Lemma run_events_cons_inv (m : MsgID) (t : Telemetry)
      (evs : list (MsgID * Telemetry)) (s s2 : BackyardFlyer)
      (out : list Command) :
  run_events ((m, t) :: evs) s = Ok (tt, s2, out) ->
  exists s1 out1 out2,
    notify_callbacks m t s = Ok (tt, s1, out1) /\
    run_events evs s1 = Ok (tt, s2, out2) /\
    out = out1 ++ out2.
Proof.
  intros E.
  destruct (notify_callbacks_total m t s) as (s1 & out1 & E1).
  destruct (run_events_total evs s1) as (s2' & out2 & E2).
  rewrite (run_events_cons _ _ _ _ _ _ _ _ E1 E2) in E.
  injection E as <- <-. exists s1, out1, out2. auto.
Qed.

(** A run from a reachable state ends in a reachable state. *)
Lemma run_events_reachable (evs : list (MsgID * Telemetry)) :
  forall s s' out,
    reachable s -> run_events evs s = Ok (tt, s', out) -> reachable s'.
Proof.
  induction evs as [|[m t] evs IH]; intros s s' out Hr E.
  - injection E as <- _. exact Hr.
  - destruct (run_events_cons_inv _ _ _ _ _ _ E) as (s1 & o1 & o2 & E1 & E2 & _).
    apply (IH s1 s' o2); [|exact E2].
    apply reachable_step with (s := s); [exact Hr|].
    exists m, t, o1. exact E1.
Qed.

(** Every reachable state is the end of a run from the initial state. *)
Lemma reachable_run :
  forall s, reachable s ->
            exists evs out, run_events evs init = Ok (tt, s, out).
Proof.
  intros s0 Hr.
  induction Hr as [|s s' _ (evs & out & E) (m & t & o & Es)].
  - exists [], []. reflexivity.
  - exists (evs ++ [(m, t)]).
    revert E. generalize init. clear -Es.
    revert out. induction evs as [|[m0 t0] evs IH]; intros out s0 E.
    + injection E as -> <-. exists (o ++ []).
      apply (run_events_cons m t [] s s' s' o []); [exact Es|reflexivity].
    + destruct (run_events_cons_inv _ _ _ _ _ _ E)
        as (s1 & o1 & o2 & E1 & E2 & _).
      destruct (IH o2 s1 E2) as (out' & E').
      exists (o1 ++ out').
      exact (run_events_cons _ _ _ _ _ _ _ _ E1 E').
Qed.

(** ** The ten states of a mission *)

(** Case analysis on a state of the itinerary. *)
Ltac itinerary_cases H :=
  cbv [itinerary In init climbing first_leg last_leg descending landed
       completed] in H;
  repeat (destruct H as [<- | H]); [ .. | contradiction ].

(** A state is one of those listed. *)
Ltac find_state :=
  solve [ repeat first [ left; reflexivity | right ] ].

(** A message takes a state of the itinerary to itself or to the next. *)
Lemma itinerary_closed (m : MsgID) (t : Telemetry) (s s' : BackyardFlyer)
      (out : list Command) :
  In s itinerary ->
  notify_callbacks m t s = Ok (tt, s', out) ->
  In s' itinerary /\ rank s <= rank s' <= S (rank s).
Proof.
  intros Hin. itinerary_cases Hin;
    destruct m; callback_cases; intros [= <- <-];
    (split; [cbv [itinerary In]; find_state | cbv; lia]).
Qed.

(** The calls of a message are the next calls of the script. *)
Lemma itinerary_script (m : MsgID) (t : Telemetry) (s s' : BackyardFlyer)
      (out : list Command) (home : Vec3) :
  In s itinerary ->
  notify_callbacks m t s = Ok (tt, s', out) ->
  exists home',
    firstn (stage s') (script home') = firstn (stage s) (script home) ++ out.
Proof.
  intros Hin. itinerary_cases Hin;
    destruct m; callback_cases; intros [= <- <-];
    first [ exists home; reflexivity
          | exists (global_position t); reflexivity ].
Qed.

(** ** Not-a-number telemetry *)

Lemma is_nan_Prim2SF (x : float) :
  is_nan x = true <-> Prim2SF x = S754_nan.
Proof.
  split.
  - intros H. unfold Prim2SF. rewrite H. reflexivity.
  - intros H. unfold is_nan. rewrite eqb_spec, H. reflexivity.
Qed.

Lemma ltb_nan_l (x y : float) : is_nan x = true -> (x <? y)%float = false.
Proof.
  intros H. apply is_nan_Prim2SF in H. rewrite ltb_spec, H. reflexivity.
Qed.

Lemma ltb_nan_r (x y : float) : is_nan y = true -> (x <? y)%float = false.
Proof.
  intros H. apply is_nan_Prim2SF in H. rewrite ltb_spec, H.
  unfold SFltb. destruct (Prim2SF x); reflexivity.
Qed.

Lemma mul_nan_r (x y : float) : is_nan y = true -> is_nan (x * y) = true.
Proof.
  intros H. apply is_nan_Prim2SF in H. apply is_nan_Prim2SF.
  rewrite mul_spec, H. destruct (Prim2SF x); reflexivity.
Qed.

Lemma sub_nan_l (x y : float) : is_nan x = true -> is_nan (x - y) = true.
Proof.
  intros H. apply is_nan_Prim2SF in H. apply is_nan_Prim2SF.
  rewrite sub_spec, H. reflexivity.
Qed.

Lemma sub_nan_r (x y : float) : is_nan y = true -> is_nan (x - y) = true.
Proof.
  intros H. apply is_nan_Prim2SF in H. apply is_nan_Prim2SF.
  rewrite sub_spec, H. destruct (Prim2SF x); reflexivity.
Qed.

Lemma sqrt_nan (x : float) : is_nan x = true -> is_nan (sqrt x) = true.
Proof.
  intros H. apply is_nan_Prim2SF in H. apply is_nan_Prim2SF.
  rewrite sqrt_spec, H. reflexivity.
Qed.

Lemma abs_nan (x : float) : is_nan x = true -> is_nan (abs x) = true.
Proof.
  intros H. apply is_nan_Prim2SF in H. apply is_nan_Prim2SF.
  rewrite abs_spec, H. reflexivity.
Qed.

Lemma fma_nan_l (x y z : float) : is_nan x = true -> is_nan (fma x y z) = true.
Proof.
  intros H. apply is_nan_Prim2SF in H. unfold fma. rewrite H. reflexivity.
Qed.

Lemma fma_nan_z (x y z : float) : is_nan z = true -> is_nan (fma x y z) = true.
Proof.
  intros H. apply is_nan_Prim2SF in H. unfold fma. rewrite H.
  destruct (Prim2SF x), (Prim2SF y); reflexivity.
Qed.

(** The norm of a vector with a NaN component is NaN. *)
Lemma norm2_nan (a b : float) :
  is_nan a = true \/ is_nan b = true -> is_nan (norm2 a b) = true.
Proof.
  intros [H | H]; unfold norm2; apply sqrt_nan.
  - apply fma_nan_z, fma_nan_l, H.
  - apply fma_nan_l, H.
Qed.

(** X1.  A position update whose reading is not a number never advances the
    mission: in TAKEOFF when the vertical position is NaN, in WAYPOINT when
    the north or the east position is NaN, and on the last waypoint when the
    north or the east velocity is NaN, the machine is unchanged and nothing
    is emitted. *)
Theorem position_update_ignores_nan (s : BackyardFlyer) (t : Telemetry) :
  (flight_state s = TAKEOFF ->
   is_nan (c2 (local_position t)) = true ->
   local_position_callback t s = Ok (tt, s, []))
  /\ (flight_state s = WAYPOINT ->
      is_nan (c0 (local_position t)) = true \/
      is_nan (c1 (local_position t)) = true ->
      local_position_callback t s = Ok (tt, s, []))
  /\ (flight_state s = WAYPOINT ->
      all_waypoints s = [] ->
      is_nan (c0 (local_velocity t)) = true \/
      is_nan (c1 (local_velocity t)) = true ->
      local_position_callback t s = Ok (tt, s, [])).
Proof.
  repeat apply conj.
  - intros Hfs Hz. rewrite (local_position_callback_takeoff s t Hfs).
    rewrite ltb_nan_r; [reflexivity|]. apply mul_nan_r, Hz.
  - intros Hfs Hxy. rewrite (local_position_callback_waypoint s t Hfs).
    rewrite ltb_nan_l; [reflexivity|]. apply norm2_nan.
    destruct Hxy as [H | H]; [left | right]; apply sub_nan_r, H.
  - intros Hfs Hq Hv. rewrite (local_position_callback_waypoint s t Hfs), Hq.
    unfold planar_speed. rewrite (ltb_nan_l (norm2 _ _)).
    + destruct (_ <? _)%float; reflexivity.
    + apply norm2_nan, Hv.
Qed.

Lemma position_update_ignores_nan_witness :
  local_position_callback lost climbing = Ok (tt, climbing, [])
  /\ local_position_callback lost first_leg = Ok (tt, first_leg, [])
  /\ local_position_callback
       (mkTelemetry (mkVec3 0 0 (-3)) (mkVec3 nan 0 0)
                    (mkVec3 0 0 3) (mkVec3 0 0 0)) last_leg =
     Ok (tt, last_leg, []).
Proof.
  split; [|split].
  - apply (proj1 (position_update_ignores_nan climbing lost)); reflexivity.
  - apply (proj1 (proj2 (position_update_ignores_nan first_leg lost)));
      [reflexivity | left; reflexivity].
  - apply (proj2 (proj2 (position_update_ignores_nan last_leg _)));
      [reflexivity | reflexivity | left; reflexivity].
Defined.

(** X2.  A velocity update never disarms on a reading that is not a number:
    when the global altitude, the home altitude or the local vertical
    position is NaN, the machine is unchanged and nothing is emitted, in
    every phase. *)
Theorem velocity_update_ignores_nan (s : BackyardFlyer) (t : Telemetry) :
  is_nan (c2 (global_position t)) = true \/
  is_nan (c2 (global_home t)) = true \/
  is_nan (c2 (local_position t)) = true ->
  velocity_callback t s = Ok (tt, s, []).
Proof.
  intros H. destruct (flight_state s) eqn:Hfs;
    try (apply velocity_callback_other; congruence).
  rewrite (velocity_callback_landing s t Hfs).
  destruct H as [H | [H | H]].
  - rewrite ltb_nan_l; [reflexivity | apply sub_nan_l, H].
  - rewrite ltb_nan_l; [reflexivity | apply sub_nan_r, H].
  - rewrite (ltb_nan_l (abs _)); [|apply abs_nan, H].
    rewrite andb_false_r. reflexivity.
Qed.

Lemma velocity_update_ignores_nan_witness :
  velocity_callback
    (mkTelemetry (mkVec3 0 0 nan) (mkVec3 0 0 0) (mkVec3 0 0 0) (mkVec3 0 0 0))
    descending =
  Ok (tt, descending, []).
Proof.
  apply velocity_update_ignores_nan. right. right. reflexivity.
Defined.

(** ** What a callback touches and reads *)

(** X3.  Every callback returns, and: the position callback never changes
    [in_mission]; the velocity callback changes nothing but the phase; the
    state callback never changes the waypoint queue nor the horizontal
    target, and never sets [in_mission] back to true. *)
Theorem callback_frames (s : BackyardFlyer) (t : Telemetry) :
  (exists s' out,
      local_position_callback t s = Ok (tt, s', out) /\
      in_mission s' = in_mission s)
  /\ (exists s' out,
         velocity_callback t s = Ok (tt, s', out) /\
         target_position s' = target_position s /\
         all_waypoints s' = all_waypoints s /\
         in_mission s' = in_mission s)
  /\ (exists s' out,
         state_callback t s = Ok (tt, s', out) /\
         all_waypoints s' = all_waypoints s /\
         c0 (target_position s') = c0 (target_position s) /\
         c1 (target_position s') = c1 (target_position s) /\
         (in_mission s' = true -> in_mission s = true)).
Proof.
  split; [|split].
  - change (local_position_callback t s)
      with (notify_callbacks LOCAL_POSITION t s).
    destruct s as [tp wps im fs]; destruct fs; callback_cases;
      do 2 eexists; split; reflexivity.
  - change (velocity_callback t s) with (notify_callbacks LOCAL_VELOCITY t s).
    destruct s as [tp wps im fs]; destruct fs; callback_cases;
      do 2 eexists; repeat split; reflexivity.
  - change (state_callback t s) with (notify_callbacks STATE t s).
    destruct s as [tp wps im fs]; destruct fs; callback_cases;
      do 2 eexists; repeat split; try reflexivity; try discriminate.
Qed.

(** X4.  A callback emits nothing exactly when it leaves the machine as it
    was: no state changes silently, and no call is made without a change of
    state. *)
Theorem silent_iff_unchanged (m : MsgID) (t : Telemetry) (s : BackyardFlyer) :
  exists s' out,
    notify_callbacks m t s = Ok (tt, s', out) /\ (out = [] <-> s' = s).
Proof.
  destruct s as [tp wps im fs]; destruct m, fs; callback_cases;
    do 2 eexists; (split; [reflexivity|]);
    (split; [try reflexivity; try discriminate | ]);
    try (intros _; reflexivity);
    try (intros H; discriminate H).
  all: intros H; injection H as _ Hq; apply (f_equal (@length Vec3)) in Hq;
    cbn [length] in Hq; lia.
Qed.

(** X5.  What the callbacks read.  The velocity callback reads the global
    altitude, the home altitude and the local vertical position, and not the
    velocity; the position callback reads the local position and the
    horizontal velocity, and in WAYPOINT not the vertical position; the
    state callback reads the global position only. *)
Theorem callbacks_read (s : BackyardFlyer) (t t' : Telemetry) :
  (c2 (global_position t) = c2 (global_position t') ->
   c2 (global_home t) = c2 (global_home t') ->
   c2 (local_position t) = c2 (local_position t') ->
   velocity_callback t s = velocity_callback t' s)
  /\ (local_position t = local_position t' ->
      c0 (local_velocity t) = c0 (local_velocity t') ->
      c1 (local_velocity t) = c1 (local_velocity t') ->
      local_position_callback t s = local_position_callback t' s)
  /\ (flight_state s = WAYPOINT ->
      c0 (local_position t) = c0 (local_position t') ->
      c1 (local_position t) = c1 (local_position t') ->
      c0 (local_velocity t) = c0 (local_velocity t') ->
      c1 (local_velocity t) = c1 (local_velocity t') ->
      local_position_callback t s = local_position_callback t' s)
  /\ (global_position t = global_position t' ->
      state_callback t s = state_callback t' s).
Proof.
  repeat apply conj.
  - intros Hp Hh Hl. destruct (flight_state s) eqn:Hfs;
      try (rewrite !velocity_callback_other by congruence; reflexivity).
    rewrite !velocity_callback_landing by assumption.
    rewrite Hp, Hh, Hl. reflexivity.
  - intros Hl H0 H1. destruct (flight_state s) eqn:Hfs;
      try (rewrite !local_position_callback_other by congruence; reflexivity).
    + rewrite !local_position_callback_takeoff by assumption.
      rewrite Hl. reflexivity.
    + rewrite !local_position_callback_waypoint by assumption.
      unfold planar_speed. rewrite Hl, H0, H1. reflexivity.
  - intros Hfs Hp0 Hp1 Hv0 Hv1.
    rewrite !local_position_callback_waypoint by assumption.
    unfold planar_speed, planar_distance. rewrite Hp0, Hp1, Hv0, Hv1.
    reflexivity.
  - intros Hg. rewrite !state_callback_eq, Hg. reflexivity.
Qed.

Lemma callbacks_read_witness :
  velocity_callback (telemetry_at 0 0 0.01 0 0) descending =
  velocity_callback (telemetry_at 5 7 0.01 3 4) descending
  /\ local_position_callback (telemetry_at 19.5 0.2 3 1 0) first_leg =
     local_position_callback (telemetry_at 19.5 0.2 40 1 0) first_leg.
Proof.
  split.
  - apply (proj1 (callbacks_read descending (telemetry_at 0 0 0.01 0 0)
                    (telemetry_at 5 7 0.01 3 4))); reflexivity.
  - apply (proj1 (proj2 (proj2
             (callbacks_read first_leg (telemetry_at 19.5 0.2 3 1 0)
                (telemetry_at 19.5 0.2 40 1 0))))); reflexivity.
Defined.

(** ** The course of a mission *)

(** The machine never leaves the itinerary. *)
Lemma reachable_itinerary (s : BackyardFlyer) :
  reachable s -> In s itinerary.
Proof.
  induction 1 as [|s s' _ IH (m & t & out & E)].
  - left. reflexivity.
  - exact (proj1 (itinerary_closed m t s s' out IH E)).
Qed.

(** A run from a state of the itinerary stays on it, moves on by at most one
    state per message, and emits the next calls of the script. *)
Lemma run_events_itinerary (evs : list (MsgID * Telemetry)) :
  forall s home,
    In s itinerary ->
    exists s' out home',
      run_events evs s = Ok (tt, s', out) /\
      In s' itinerary /\
      rank s <= rank s' <= rank s + length evs /\
      firstn (stage s') (script home') = firstn (stage s) (script home) ++ out.
Proof.
  induction evs as [|[m t] evs IH]; intros s home Hin.
  - exists s, [], home. rewrite app_nil_r. cbn [length].
    repeat split; trivial; lia.
  - destruct (notify_callbacks_total m t s) as (s1 & o1 & E1).
    destruct (itinerary_closed m t s s1 o1 Hin E1) as [Hin1 Hr1].
    destruct (itinerary_script m t s s1 o1 home Hin E1) as (home1 & Hs1).
    destruct (IH s1 home1 Hin1) as (s2 & o2 & home2 & E2 & Hin2 & Hr2 & Hs2).
    exists s2, (o1 ++ o2), home2.
    split; [exact (run_events_cons _ _ _ _ _ _ _ _ E1 E2)|].
    split; [exact Hin2|]. split; [cbn [length]; lia|].
    rewrite Hs2, Hs1, app_assoc. reflexivity.
Qed.

(** X6.  The machine has exactly ten reachable states: the initial one,
    armed, climbing, one for each corner of the box with the corners after
    it still queued, landing, disarming and the completed mission. *)
Theorem reachable_states (s : BackyardFlyer) :
  reachable s <-> In s itinerary.
Proof.
  split; [apply reachable_itinerary|].
  intros Hin.
  assert (Hrun : forall k out,
             run_events (firstn k mission) init = Ok (tt, s, out) ->
             reachable s).
  { intros k out. apply run_events_reachable. apply reachable_init. }
  itinerary_cases Hin.
  - apply reachable_init.
  - eapply (Hrun 1). reflexivity.
  - eapply (Hrun 2). reflexivity.
  - eapply (Hrun 3). reflexivity.
  - eapply (Hrun 4). reflexivity.
  - eapply (Hrun 5). reflexivity.
  - eapply (Hrun 6). reflexivity.
  - eapply (Hrun 8). reflexivity.
  - eapply (Hrun 10). reflexivity.
  - eapply (Hrun 11). reflexivity.
Qed.

(** X7.  Whatever messages arrive, and in whatever order, the calls the
    machine has made are the first calls of one fixed script: take control,
    arm, set home, take off to 3.0, fly to the four corners (20,0), (20,20),
    (0,20), (0,0) at altitude 3.0 and heading 0, land, disarm, release
    control, stop.  No call is repeated, skipped or made out of order, and
    never more than twelve are made. *)
Theorem mission_script (evs : list (MsgID * Telemetry)) :
  exists s out home,
    run_events evs init = Ok (tt, s, out) /\
    out = firstn (stage s) (script home) /\
    length out <= 12.
Proof.
  destruct (run_events_itinerary evs init (mkVec3 0 0 0))
    as (s & out & home & E & _ & _ & Hs).
  { left. reflexivity. }
  cbn [stage init flight_state in_mission firstn app] in Hs.
  exists s, out, home. split; [exact E|]. split; [symmetry; exact Hs|].
  rewrite <- Hs, length_firstn. cbn [script length]. lia.
Qed.

(** X8.  Progress is one step per message at most and never undone: over a
    run from a reachable state the number of transitions made does not
    decrease and grows by at most the number of messages.  So a mission is
    never completed by fewer than nine messages. *)
Theorem progress_per_message
  (evs : list (MsgID * Telemetry)) (s s' : BackyardFlyer) (out : list Command) :
  reachable s ->
  run_events evs s = Ok (tt, s', out) ->
  rank s <= rank s' <= rank s + length evs
  /\ (s = init -> in_mission s' = false -> 9 <= length evs).
Proof.
  intros Hr E. apply reachable_itinerary in Hr.
  destruct (run_events_itinerary evs s (mkVec3 0 0 0) Hr)
    as (s2 & o2 & _ & E2 & Hin2 & Hrank & _).
  rewrite E in E2. injection E2 as <- <-.
  split; [exact Hrank|].
  intros -> Him. cbn [rank init flight_state in_mission] in Hrank.
  assert (rank s' = 9); [|lia].
  clear -Hin2 Him. itinerary_cases Hin2; try discriminate Him. reflexivity.
Qed.

Lemma progress_per_message_witness :
  rank init <= rank completed <= rank init + length mission
  /\ 9 <= length mission.
Proof.
  destruct (progress_per_message mission init completed
              [ take_control; arm; set_home_position 0 0 0; takeoff 3;
                cmd_position 20 0 3 0; cmd_position 20 20 3 0;
                cmd_position 0 20 3 0; cmd_position 0 0 3 0; land; disarm;
                release_control; stop ]%float
              reachable_init eq_refl) as [Hrank Hmin].
  split; [exact Hrank | exact (Hmin eq_refl eq_refl)].
Defined.

(** X9.  The machine has no dead end: from every reachable state the mission
    can still be completed, and in as many messages as there are transitions
    left, nine from the initial state. *)
Theorem mission_can_finish (s : BackyardFlyer) :
  reachable s ->
  exists evs out,
    length evs = 9 - rank s /\
    run_events evs s = Ok (tt, completed, out).
Proof.
  intros Hr. apply reachable_itinerary in Hr.
  itinerary_cases Hr;
    match goal with
    | |- exists evs out, length evs = 9 - rank ?st /\ _ =>
        let r := eval cbv in (rank st) in
        exists (skipn r direct_mission)
    end;
    eexists; split; reflexivity.
Qed.

Lemma mission_can_finish_witness :
  exists evs out,
    length evs = 9 - rank init /\
    run_events evs init = Ok (tt, completed, out).
Proof.
  exact (mission_can_finish init reachable_init).
Defined.

(** X10.  The corners are flown in the order of the box: in every reachable
    state in WAYPOINT the target followed by the queue is the box of
    [calculate_box] less its first corners, none skipped; and from TAKEOFF
    to DISARMING the altitude of the target is the altitude of the plan. *)
Theorem target_on_plan (s : BackyardFlyer) :
  reachable s ->
  (flight_state s = WAYPOINT ->
   exists box k,
     calculate_box = Ok box /\ k < length box /\
     target_position s :: all_waypoints s = skipn k box)
  /\ (flight_state s = TAKEOFF \/ flight_state s = WAYPOINT \/
      flight_state s = LANDING \/ flight_state s = DISARMING ->
      nth_error flight_plan_coordinates 4 = Some (c2 (target_position s))).
Proof.
  intros Hr. apply reachable_itinerary in Hr.
  itinerary_cases Hr; (split; [intros Hfs; try discriminate Hfs | ]);
    try (intros [H | [H | [H | H]]]; try discriminate H; reflexivity).
  - eexists. exists 0. repeat split; cbn; lia.
  - eexists. exists 1. repeat split; cbn; lia.
  - eexists. exists 2. repeat split; cbn; lia.
  - eexists. exists 3. repeat split; cbn; lia.
Qed.

Lemma target_on_plan_witness :
  exists box k,
    calculate_box = Ok box /\ k < length box /\
    target_position first_leg :: all_waypoints first_leg = skipn k box.
Proof.
  apply (target_on_plan first_leg); [|reflexivity].
  apply (run_events_reachable (firstn 3 mission) init first_leg
           [ take_control; arm; set_home_position 0 0 0; takeoff 3;
             cmd_position 20 0 3 0 ]%float reachable_init).
  reflexivity.
Defined.

(** X11.  [in_mission] is cleared at the end of the mission and nowhere
    else: a reachable state has it false exactly when it is the completed
    state, and in every phase but MANUAL it is true. *)
Theorem in_mission_until_completed (s : BackyardFlyer) :
  reachable s ->
  (in_mission s = false <-> s = completed)
  /\ (is_mission_complete s = true <-> s = completed)
  /\ (flight_state s <> MANUAL -> in_mission s = true).
Proof.
  intros Hr. apply reachable_itinerary in Hr.
  itinerary_cases Hr; repeat split;
    try reflexivity; try discriminate;
    try (intros H; exfalso; apply H; reflexivity).
Qed.

Lemma in_mission_until_completed_witness :
  (in_mission completed = false <-> completed = completed)
  /\ (is_mission_complete completed = true <-> completed = completed)
  /\ (flight_state completed <> MANUAL -> in_mission completed = true).
Proof.
  apply (in_mission_until_completed completed).
  apply (run_events_reachable direct_mission init completed
           [ take_control; arm; set_home_position 0 0 0; takeoff 3;
             cmd_position 20 0 3 0; cmd_position 20 20 3 0;
             cmd_position 0 20 3 0; cmd_position 0 0 3 0; land; disarm;
             release_control; stop ]%float reachable_init).
  reflexivity.
Defined.
